(** * to_shp.py: cleaning the column names of a shapefile

    The script loads a shapefile into a GeoDataFrame, renames ten columns
    whose names carry the letters Ö and Ü, writes the frame to a second
    shapefile and prints the resulting column names.

    Python [str] values are embedded as [string]: the UTF-8 bytes of the
    text.  UTF-8 is injective, so equality of the byte strings is equality
    of the Python strings, which is all that a dictionary lookup uses. *)

From Stdlib Require Import DecimalString DecimalPos DecimalZ.
From stdpp Require Import gmap strings list fin_maps.

(** ** Data model *)

Module Frame.

(** A GeoDataFrame as pandas holds it: the column labels (an ordered index
    in which the same label may occur twice) and the records, each record
    holding one cell per column, the geometry cell among them.  The cells
    are of an arbitrary type: nothing in the script looks inside one. *)
Record GeoDataFrame (Cell : Type) : Type := mkGDF {
  columns : list string;
  records : list (list Cell)
}.

Arguments mkGDF {Cell} _ _.
Arguments columns {Cell} _.
Arguments records {Cell} _.

(** What [DataFrame.rename] does to one label when the mapper is a dict:
    [mapper[x] if x in mapper else x]. *)
Definition rename_label (mapper : gmap string string) (x : string) : string :=
  match mapper !! x with
  | Some y => y
  | None => x
  end.

(** [gdf.rename(columns=mapper)]: a new frame with every column label sent
    through the mapper, and the data of the old one. *)
Definition rename {Cell} (mapper : gmap string string)
    (gdf : GeoDataFrame Cell) : GeoDataFrame Cell :=
  mkGDF (rename_label mapper <$> columns gdf) (records gdf).

(** A record as the pairs of a column label and the cell under it. *)
Definition record_items {Cell} (gdf : GeoDataFrame Cell) (r : list Cell)
    : list (string * Cell) :=
  zip (columns gdf) r.

(** The position of the first column that carries the label [name]. *)
Definition column_index (name : string) (cols : list string) : option nat :=
  fst <$> list_find (fun c => c = name) cols.

(** The geometry of a record: the cell under the column that [read_file]
    labels "geometry". *)
Definition geometry {Cell} (gdf : GeoDataFrame Cell) (r : list Cell)
    : option Cell :=
  i ← column_index "geometry" (columns gdf); r !! i.

End Frame.
Import Frame.

(** ** The constants of the script *)

Definition updated_path : string :=
  "C:\Users\User\OneDrive\Desktop\Upwork\co2-storage-atlas\Shapefiles\updated_commune.shp".

Definition cleaned_path : string :=
  "C:\Users\User\OneDrive\Desktop\Upwork\co2-storage-atlas\Shapefiles\updated_commune_cleaned.shp".

(** A dict display [{k1: v1, ..., kn: vn}] stores the pairs from left to
    right, a later pair replacing an earlier one with the same key. *)
Definition dict_display (items : list (string * string)) : gmap string string :=
  foldl (fun d kv => <[kv.1 := kv.2]> d) ∅ items.

Definition rename_map : gmap string string :=
  dict_display [
    ("SPÖ_votes", "SPO_votes");
    ("SPÖ_perce", "SPO_perc");
    ("ÖVP_votes", "OEVP_votes");
    ("ÖVP_perce", "OEVP_perc");
    ("FPÖ_votes", "FPOE_votes");
    ("FPÖ_perce", "FPOE_perc");
    ("GRÜNE_vot", "GRUENE_votes");
    ("GRÜNE_per", "GRUENE_perc");
    ("KPÖ_votes", "KPOE_votes");
    ("KPÖ_perce", "KPOE_perc")
  ].

(** The rename table as the specification prints it (External Interfaces):
    ten rows, old name then new name. *)
Definition spec_rename_table : list (string * string) := [
    ("SPÖ_votes", "SPO_votes");
    ("SPÖ_perce", "SPO_perc");
    ("ÖVP_votes", "OEVP_votes");
    ("ÖVP_perce", "OEVP_perc");
    ("FPÖ_votes", "FPOE_votes");
    ("FPÖ_perce", "FPOE_perc");
    ("GRÜNE_vot", "GRUENE_votes");
    ("GRÜNE_per", "GRUENE_perc");
    ("KPÖ_votes", "KPOE_votes");
    ("KPÖ_perce", "KPOE_perc")
  ].

(** ** The process: library calls, exceptions and standard output *)

(** What the script needs from geopandas.  [read_file] only reads the
    world; [to_file] may change it, also when it raises (a shapefile is
    several files on disk).  [Exn] is the type of Python exceptions. *)
Class Geopandas (Cell World Exn : Type) : Type := {
  read_file : string → World → Exn + GeoDataFrame Cell;
  to_file : GeoDataFrame Cell → string → World → option Exn * World
}.

Module Py.
Section Process.
Context {Cell World Exn : Type} `{!Geopandas Cell World Exn}.

(** The library calls made so far, oldest first. *)
Inductive call : Type :=
| CallReadFile (path : string)
| CallToFile (gdf : GeoDataFrame Cell) (path : string).

Record process : Type := mkProcess {
  world : World;
  stdout : string;
  calls : list call
}.

(** How a statement ends: normally, or by an exception on its way up. *)
Inductive outcome (A : Type) : Type :=
| Returned (a : A)
| Raised (e : Exn).

Definition M (A : Type) : Type := process → outcome A * process.

Definition ret {A} (a : A) : M A := fun s => (Returned A a, s).

(** Sequencing: the script has no [try], so an exception skips all the
    statements that follow. *)
Definition bind {A B} (m : M A) (k : A → M B) : M B :=
  fun s =>
    match m s with
    | (Returned _ a, s') => k a s'
    | (Raised _ e, s') => (Raised B e, s')
    end.

Definition gpd_read_file (path : string) : M (GeoDataFrame Cell) :=
  fun s =>
    let s' := mkProcess (world s) (stdout s) (calls s ++ [CallReadFile path]) in
    match read_file path (world s) with
    | inl e => (Raised _ e, s')
    | inr gdf => (Returned _ gdf, s')
    end.

Definition gdf_to_file (gdf : GeoDataFrame Cell) (path : string) : M unit :=
  fun s =>
    let '(r, w) := to_file gdf path (world s) in
    let s' := mkProcess w (stdout s) (calls s ++ [CallToFile gdf path]) in
    match r with
    | Some e => (Raised _ e, s')
    | None => (Returned _ tt, s')
    end.

Definition newline : string := String (Ascii.ascii_of_nat 10) "".

(** [print] with positional arguments: the arguments separated by one
    space, then a newline, appended to standard output (which is taken to
    accept any text). *)
Definition print (args : list string) : M unit :=
  fun s =>
    (Returned _ tt,
     mkProcess (world s) (stdout s +:+ String.concat " " args +:+ newline) (calls s)).

(** [for x in xs: body] *)
Fixpoint for_each {A} (xs : list A) (body : A → M unit) : M unit :=
  match xs with
  | [] => ret tt
  | x :: xs' => bind (body x) (fun _ => for_each xs' body)
  end.
End Process.

Arguments call : clear implicits.
Arguments process : clear implicits.
Arguments outcome : clear implicits.
Arguments M : clear implicits.
Arguments Returned {Exn A} _.
Arguments Raised {Exn A} _.

(** [enumerate(xs, start)] *)
Fixpoint enumerate {A} (xs : list A) (start : Z) : list (Z * A) :=
  match xs with
  | [] => []
  | x :: xs' => (start, x) :: enumerate xs' (start + 1)
  end.

(** [str(i)] of an int: its decimal digits, with a minus sign below zero. *)
Definition str_int (i : Z) : string := NilZero.string_of_int (Z.to_int i).

End Py.
Import Py.

(** [M] with stdpp's monad notations: [x ← m; k] and [m;; k]. *)
#[global] Instance M_ret {Cell World Exn} : MRet (M Cell World Exn) :=
  fun _ a => Py.ret a.
#[global] Instance M_bind {Cell World Exn} : MBind (M Cell World Exn) :=
  fun _ _ k m => Py.bind m k.

Section Script.
Context {Cell World Exn : Type} `{!Geopandas Cell World Exn}.

(** The line that the report loop prints for column [col] at index [i]:
    the f-string [f"{i}. {col}"]. *)
Definition column_line (i : Z) (col : string) : string :=
  str_int i +:+ ". " +:+ col.

(** The script, statement by statement. *)
Definition main : M Cell World Exn unit :=
  gdf ← gpd_read_file updated_path;
  let gdf := rename rename_map gdf in
  gdf_to_file gdf cleaned_path;;
  print ["✅ Cleaned shapefile saved to:"; cleaned_path];;
  print ["📋 New columns:"];;
  for_each (enumerate (columns gdf) 1)
    (fun '(i, col) => print [column_line i col]).

(** The process when the interpreter starts [main]: nothing printed, no
    call made. *)
Definition start (w : World) : process Cell World := mkProcess w "" [].

Definition run (w : World) : outcome Exn unit * process Cell World :=
  main (start w).
End Script.

(** ** Standard output as lines *)

(** The text that consists of the given lines, each ended by a newline. *)
Fixpoint unlines (ls : list string) : string :=
  match ls with
  | [] => ""
  | l :: ls' => l +:+ newline +:+ unlines ls'
  end.

(** The lines of a text: the pieces between newlines; [cur] is the line
    being read.  A last piece without a newline counts when not empty. *)
Fixpoint splitlines_go (cur : string) (s : string) : list string :=
  match s with
  | "" => if decide (cur = "") then [] else [cur]
  | String c s' =>
      if decide (c = Ascii.ascii_of_nat 10)
      then cur :: splitlines_go "" s'
      else splitlines_go (cur +:+ String c "") s'
  end.

Definition splitlines (s : string) : list string := splitlines_go "" s.

(** A text without a newline in it. *)
Fixpoint single_line (s : string) : bool :=
  match s with
  | "" => true
  | String c s' =>
      if decide (c = Ascii.ascii_of_nat 10) then false else single_line s'
  end.

(** [sub] occurs in [s]. *)
Definition contains (s sub : string) : Prop :=
  ∃ pre post, s = pre +:+ sub +:+ post.

(** The byte [c] occurs in [s]. *)
Fixpoint mentions (c : Ascii.ascii) (s : string) : bool :=
  match s with
  | "" => false
  | String x s' => if decide (x = c) then true else mentions c s'
  end.

(** A name made of ASCII bytes only: no byte of a multi-byte UTF-8
    sequence, all of which are 128 or more. *)
Fixpoint ascii_only (s : string) : bool :=
  match s with
  | "" => true
  | String x s' => bool_decide (Ascii.nat_of_ascii x < 128) && ascii_only s'
  end.

(** The lines of the report loop for the column list [cols]. *)
Definition numbered_lines (cols : list string) : list string :=
  (fun '(i, col) => column_line i col) <$> enumerate cols 1.

Definition confirmation_line : string :=
  "✅ Cleaned shapefile saved to: " +:+ cleaned_path.

Definition columns_header : string := "📋 New columns:".

(** The console output as the specification words it: one confirmation
    line that contains the destination path, then the numbered lines. *)
Definition report_as_specified (out : string) (cols : list string) : Prop :=
  ∃ conf, single_line conf = true ∧ contains conf cleaned_path
          ∧ out = unlines (conf :: numbered_lines cols).

(** ** A small disk to run the script on *)

Module Disk.

Inductive cell : Type :=
| Polygon (wkt : string)
| Int (n : Z)
| Text (s : string).

Inductive py_exn : Type :=
| DataSourceError (path : string)
| PermissionError (path : string)
| ValueError (message : string).

(** The files by path, and whether the disk refuses writes. *)
Record disk : Type := mkDisk {
  files : gmap string (GeoDataFrame cell);
  read_only : bool
}.

(** The writer looks at the column names before it touches the disk, as
    geopandas' [to_file] does: a frame in which two columns bear the same
    name is refused with a [ValueError].  A frame it accepts is stored as
    given: that the shapefile driver cuts field names to ten characters
    is not modelled. *)
#[global] Instance disk_geopandas : Geopandas cell disk py_exn := {|
  read_file path d :=
    match files d !! path with
    | Some gdf => inr gdf
    | None => inl (DataSourceError path)
    end;
  to_file gdf path d :=
    if bool_decide (NoDup (columns gdf)) then
      if read_only d then (Some (PermissionError path), d)
      else (None, mkDisk (<[path := gdf]> (files d)) false)
    else
      (Some (ValueError "GeoDataFrame cannot contain duplicated column names."), d)
|}.

Definition communes : GeoDataFrame cell :=
  mkGDF ["geometry"; "SPÖ_votes"; "FPÖ_perce"; "Other"]
        [ [Polygon "POLYGON ((0 0, 1 0, 1 1, 0 0))"; Int 120; Int 31; Text "a"];
          [Polygon "POLYGON ((2 0, 3 0, 3 1, 2 0))"; Int 75; Int 12; Text "b"] ].

Definition colliding : GeoDataFrame cell :=
  mkGDF ["geometry"; "OEVP_votes"; "ÖVP_votes"]
        [ [Polygon "POLYGON ((0 0, 1 0, 1 1, 0 0))"; Int 1; Int 2] ].

Definition cleaned : GeoDataFrame cell :=
  mkGDF ["geometry"; "SPO_votes"; "Other"]
        [ [Polygon "POLYGON ((0 0, 1 0, 1 1, 0 0))"; Int 120; Text "a"] ].

Definition empty_disk : disk := mkDisk ∅ false.
Definition loaded_disk : disk := mkDisk {[ updated_path := communes ]} false.
Definition locked_disk : disk := mkDisk {[ updated_path := communes ]} true.
Definition colliding_disk : disk := mkDisk {[ updated_path := colliding ]} false.

End Disk.

(** The collision scenario as the specification words it, for a run whose
    load returns [gdf]: after the rename two columns bear the new name
    [v], no column is dropped, and no error is raised. *)
Definition collision_as_specified {Cell World Exn} `{!Geopandas Cell World Exn}
    (w : World) (gdf : GeoDataFrame Cell) (v : string) : Prop :=
  let renamed := rename rename_map gdf in
  (∃ i j, i ≠ j ∧ columns renamed !! i = Some v ∧ columns renamed !! j = Some v)
  ∧ length (columns renamed) = length (columns gdf)
  ∧ ∀ e, (run w).1 ≠ Raised e.

(** * Properties *)

(** ** The rename table *)

Lemma dict_display_snoc items k v :
  dict_display (items ++ [(k, v)]) = <[k := v]> (dict_display items).
Proof. unfold dict_display. by rewrite foldl_snoc. Qed.

(** A dict display without a repeated key holds its pairs as written. *)
Lemma dict_display_list items :
  NoDup items.*1 → dict_display items = list_to_map items.
Proof.
  induction items as [|[k v] items IH] using rev_ind; [done|].
  rewrite fmap_app, NoDup_app. simpl. intros (Hnd & Hfresh & _).
  rewrite dict_display_snoc, list_to_map_snoc, (IH Hnd); [done|].
  intros Hk. apply (Hfresh k Hk), list_elem_of_singleton. done.
Qed.

Lemma spec_rename_table_keys : NoDup spec_rename_table.*1.
Proof. apply (bool_decide_unpack _). vm_compute. exact I. Qed.

Lemma rename_map_list : rename_map = list_to_map spec_rename_table.
Proof. apply dict_display_list, spec_rename_table_keys. Qed.

Lemma rename_map_items : map_to_list rename_map ≡ₚ spec_rename_table.
Proof.
  rewrite rename_map_list.
  apply map_to_list_to_map, spec_rename_table_keys.
Qed.

Lemma rename_map_lookup k v :
  rename_map !! k = Some v ↔ (k, v) ∈ spec_rename_table.
Proof. by rewrite <-elem_of_map_to_list, rename_map_items. Qed.

(** Facts that hold row by row are decided by running through the rows. *)
Lemma table_rows (p : string → string → bool) :
  forallb (fun kv => p kv.1 kv.2) spec_rename_table = true →
  ∀ k v, rename_map !! k = Some v → p k v = true.
Proof.
  intros Hall k v Hkv%rename_map_lookup%list_elem_of_In.
  by apply (proj1 (forallb_forall _ _) Hall (k, v)).
Qed.

Lemma new_name_not_key k v :
  rename_map !! k = Some v → rename_map !! v = None.
Proof.
  intros H. apply (bool_decide_eq_true_1 (rename_map !! v = None)).
  revert k v H.
  apply (table_rows (fun _ v => bool_decide (rename_map !! v = None))).
  vm_compute. reflexivity.
Qed.

Lemma key_length k v : rename_map !! k = Some v → String.length k = 10.
Proof.
  intros H. apply (bool_decide_eq_true_1 (String.length k = 10)).
  revert k v H.
  apply (table_rows (fun k _ => bool_decide (String.length k = 10))).
  vm_compute. reflexivity.
Qed.

Lemma spec_rename_table_values : NoDup spec_rename_table.*2.
Proof. apply (bool_decide_unpack _). vm_compute. exact I. Qed.

Lemma NoDup_snd_inj {A B} (l : list (A * B)) a1 a2 b :
  NoDup l.*2 → (a1, b) ∈ l → (a2, b) ∈ l → a1 = a2.
Proof.
  induction l as [|[a' b'] l IH]; simpl; intros Hnd H1 H2.
  - by apply elem_of_nil in H1.
  - apply NoDup_cons in Hnd as [Hfresh Hnd].
    apply elem_of_cons in H1 as [H1 | H1]; apply elem_of_cons in H2 as [H2 | H2];
      simplify_eq; try done.
    + destruct Hfresh. by apply (list_elem_of_fmap_2 snd _ (a2, b')).
    + destruct Hfresh. by apply (list_elem_of_fmap_2 snd _ (a1, b')).
    + by apply IH.
Qed.

Lemma new_name_inj k1 k2 v :
  rename_map !! k1 = Some v → rename_map !! k2 = Some v → k1 = k2.
Proof.
  rewrite !rename_map_lookup.
  apply NoDup_snd_inj, spec_rename_table_values.
Qed.

(** ** One label *)

Lemma rename_label_key m k v : m !! k = Some v → rename_label m k = v.
Proof. unfold rename_label. by intros ->. Qed.

Lemma rename_label_other m x : m !! x = None → rename_label m x = x.
Proof. unfold rename_label. by intros ->. Qed.

Lemma rename_label_twice x :
  rename_label rename_map (rename_label rename_map x) = rename_label rename_map x.
Proof.
  destruct (rename_map !! x) as [v|] eqn:Hx.
  - rewrite (rename_label_key _ _ _ Hx).
    by apply rename_label_other, (new_name_not_key x).
  - by rewrite !(rename_label_other _ _ Hx).
Qed.

Lemma rename_columns_lookup {Cell} m (gdf : GeoDataFrame Cell) i :
  columns (rename m gdf) !! i = rename_label m <$> columns gdf !! i.
Proof. unfold rename. simpl. apply list_lookup_fmap. Qed.

Lemma rename_label_geometry x :
  rename_label rename_map x = "geometry" ↔ x = "geometry".
Proof.
  split; [|by intros ->].
  destruct (rename_map !! x) as [v|] eqn:Hx.
  - rewrite (rename_label_key _ _ _ Hx). intros ->. exfalso.
    pose proof (table_rows (fun _ v => bool_decide (v ≠ "geometry"))) as Hrows.
    simpl in Hrows. specialize (Hrows eq_refl _ _ Hx).
    by apply bool_decide_eq_true in Hrows.
  - by rewrite (rename_label_other _ _ Hx).
Qed.

Lemma column_index_rename cols :
  column_index "geometry" (rename_label rename_map <$> cols)
  = column_index "geometry" cols.
Proof.
  unfold column_index. rewrite list_find_fmap.
  rewrite (list_find_ext _ (fun c => c = "geometry")).
  - by destruct (list_find _ cols) as [[i c]|].
  - intros x. apply rename_label_geometry.
Qed.

Lemma zip_values {A B C} (l1 : list A) (l2 : list B) (k : list C) :
  length l1 = length l2 → (zip l1 k).*2 = (zip l2 k).*2.
Proof.
  revert l2 k. induction l1 as [|a l1 IH]; intros [|b l2] [|c k]; try done.
  simpl. intros [= Hlen]. f_equal. by apply IH.
Qed.

(** ** The rename step *)

(** C1: every column whose name is a key of the rename table carries the
    table's value for it after the rename, and the table of the script is
    the table of the specification: its ten rows and nothing else. *)
Theorem rename_replaces_table_names :
  (∀ Cell (gdf : GeoDataFrame Cell) (i : nat) (k v : string),
      columns gdf !! i = Some k →
      rename_map !! k = Some v →
      columns (rename rename_map gdf) !! i = Some v)
  ∧ map_to_list rename_map ≡ₚ spec_rename_table
  ∧ length spec_rename_table = 10.
Proof.
  split_and!; [|apply rename_map_items|done].
  intros Cell gdf i k v Hi Hk.
  rewrite rename_columns_lookup, Hi. simpl.
  by rewrite (rename_label_key _ _ _ Hk).
Qed.

Lemma rename_replaces_table_names_witness :
  columns (rename rename_map Disk.communes) !! 1 = Some "SPO_votes".
Proof.
  apply (proj1 rename_replaces_table_names _ Disk.communes 1 "SPÖ_votes").
  - reflexivity.
  - vm_compute. reflexivity.
Defined.

(** C2: a column whose name is not exactly a key of the rename table keeps
    its name.  A name that contains a key with something before or after
    it is no key, nor are the keys in another letter case. *)
Theorem rename_keeps_other_names :
  (∀ Cell (gdf : GeoDataFrame Cell) (i : nat) (x : string),
      columns gdf !! i = Some x →
      rename_map !! x = None →
      columns (rename rename_map gdf) !! i = Some x)
  ∧ (∀ k pre post : string,
      is_Some (rename_map !! k) →
      pre +:+ post ≠ "" →
      rename_map !! (pre +:+ k +:+ post) = None)
  ∧ Forall (fun x => rename_map !! x = None)
      ["spö_votes"; "SPö_votes"; "spÖ_votes"; "SPÖ_VOTES"; "övp_perce";
       "grüne_vot"; "GRüNE_vot"; "Grüne_per"; "kpÖ_votes"; "FPÖ_Perce"].
Proof.
  split_and!.
  - intros Cell gdf i x Hi Hx.
    rewrite rename_columns_lookup, Hi. simpl.
    by rewrite (rename_label_other _ _ Hx).
  - intros k pre post [v Hk] Hne.
    destruct (rename_map !! (pre +:+ k +:+ post)) as [v'|] eqn:Hlong; [|done].
    apply key_length in Hk, Hlong.
    assert (∀ a b, String.length (a +:+ b) = String.length a + String.length b) as Hlen.
    { intros a b. induction a as [|c a IH]; simpl; [done|]. by rewrite IH. }
    rewrite !Hlen, Hk in Hlong.
    destruct pre, post; simpl in *; try done; lia.
  - apply (bool_decide_unpack _). vm_compute. exact I.
Qed.

Lemma rename_keeps_other_names_witness :
  columns (rename rename_map Disk.communes) !! 3 = Some "Other"
  ∧ rename_map !! ("SPÖ_votes" +:+ "_2") = None.
Proof.
  split.
  - apply (proj1 rename_keeps_other_names _ Disk.communes 3 "Other").
    + reflexivity.
    + vm_compute. reflexivity.
  - apply (proj1 (proj2 rename_keeps_other_names) "SPÖ_votes" "" "_2").
    + exists "SPO_votes". vm_compute. reflexivity.
    + discriminate.
Defined.

(** C3: renaming a renamed frame changes nothing, because no new name of
    the table is a key of the table. *)
Theorem rename_idempotent :
  (∀ Cell (gdf : GeoDataFrame Cell),
      rename rename_map (rename rename_map gdf) = rename rename_map gdf)
  ∧ (∀ k v : string, rename_map !! k = Some v → rename_map !! v = None).
Proof.
  split; [|apply new_name_not_key].
  intros Cell [cols recs]. unfold rename. simpl. f_equal.
  rewrite <-list_fmap_compose. apply list_fmap_ext.
  intros _ x _. apply rename_label_twice.
Qed.

Lemma rename_idempotent_witness :
  rename_map !! "GRUENE_votes" = None.
Proof.
  apply (proj2 rename_idempotent "GRÜNE_vot"). vm_compute. reflexivity.
Defined.

(** C4: the rename touches column labels only: the records are the same
    list (same number, same order, same cells), there are as many columns
    as before, every record holds the same values under its labels, and
    the geometry of every record is the one it had. *)
Theorem rename_changes_keys_only {Cell} (gdf : GeoDataFrame Cell) :
  records (rename rename_map gdf) = records gdf
  ∧ length (records (rename rename_map gdf)) = length (records gdf)
  ∧ length (columns (rename rename_map gdf)) = length (columns gdf)
  ∧ (∀ r, (record_items (rename rename_map gdf) r).*2 = (record_items gdf r).*2)
  ∧ (∀ r, geometry (rename rename_map gdf) r = geometry gdf r).
Proof.
  split_and!; try done.
  - unfold rename. simpl. apply length_fmap.
  - intros r. apply zip_values. unfold rename. simpl. apply length_fmap.
  - intros r. unfold geometry, rename. simpl. by rewrite column_index_rename.
Qed.

(** C5: the columns geometry, SPÖ_votes, FPÖ_perce, Other become geometry,
    SPO_votes, FPOE_perc, Other, in that order, whatever the records. *)
Theorem rename_scenario_columns {Cell} (recs : list (list Cell)) :
  columns (rename rename_map
             (mkGDF ["geometry"; "SPÖ_votes"; "FPÖ_perce"; "Other"] recs))
  = ["geometry"; "SPO_votes"; "FPOE_perc"; "Other"].
Proof. vm_compute. reflexivity. Qed.

(** C10: the new names of the table are pairwise distinct and none of
    them is a key, so two keys never get the same new name and a new name
    is never renamed again; in a frame whose column names were distinct,
    two columns share a name after the rename only when one of them bore
    that name before, off the table, and the other bore a key for it. *)
Theorem rename_map_values_fresh :
  NoDup spec_rename_table.*2
  ∧ (∀ k1 k2 v : string,
      rename_map !! k1 = Some v → rename_map !! k2 = Some v → k1 = k2)
  ∧ (∀ k v : string, rename_map !! k = Some v → rename_map !! v = None)
  ∧ (∀ Cell (gdf : GeoDataFrame Cell) (i j : nat) (n : string),
      NoDup (columns gdf) →
      i ≠ j →
      columns (rename rename_map gdf) !! i = Some n →
      columns (rename rename_map gdf) !! j = Some n →
      rename_map !! n = None
      ∧ ((columns gdf !! i = Some n
          ∧ ∃ k, columns gdf !! j = Some k ∧ rename_map !! k = Some n)
         ∨ (columns gdf !! j = Some n
            ∧ ∃ k, columns gdf !! i = Some k ∧ rename_map !! k = Some n))).
Proof.
  split_and!;
    [apply spec_rename_table_values | apply new_name_inj | apply new_name_not_key |].
  intros Cell gdf i j n Hnd Hij.
  rewrite !rename_columns_lookup.
  destruct (columns gdf !! i) as [a|] eqn:Hi; [simpl|done].
  destruct (columns gdf !! j) as [b|] eqn:Hj; [simpl|done].
  intros [= Ha] [= Hb].
  assert (a ≠ b) as Hab.
  { intros ->. by apply Hij, (NoDup_lookup _ _ _ _ Hnd Hi Hj). }
  destruct (rename_map !! a) as [va|] eqn:Hka; destruct (rename_map !! b) as [vb|] eqn:Hkb.
  - rewrite (rename_label_key _ _ _ Hka) in Ha.
    rewrite (rename_label_key _ _ _ Hkb) in Hb. subst.
    destruct Hab. by apply (new_name_inj a b n).
  - rewrite (rename_label_key _ _ _ Hka) in Ha.
    rewrite (rename_label_other _ _ Hkb) in Hb. subst. eauto 6.
  - rewrite (rename_label_other _ _ Hka) in Ha.
    rewrite (rename_label_key _ _ _ Hkb) in Hb. subst. eauto 6.
  - rewrite (rename_label_other _ _ Hka) in Ha.
    rewrite (rename_label_other _ _ Hkb) in Hb. by subst.
Qed.

Lemma rename_map_values_fresh_witness :
  rename_map !! "OEVP_votes" = None
  ∧ ((columns Disk.colliding !! 1 = Some "OEVP_votes"
      ∧ ∃ k, columns Disk.colliding !! 2 = Some k
             ∧ rename_map !! k = Some "OEVP_votes")
     ∨ (columns Disk.colliding !! 2 = Some "OEVP_votes"
        ∧ ∃ k, columns Disk.colliding !! 1 = Some k
               ∧ rename_map !! k = Some "OEVP_votes")).
Proof.
  apply (proj2 (proj2 (proj2 rename_map_values_fresh)) _ Disk.colliding 1 2).
  - apply (bool_decide_unpack _). vm_compute. exact I.
  - lia.
  - vm_compute. reflexivity.
  - vm_compute. reflexivity.
Defined.

(** ** Strings and lines *)

Lemma string_app_assoc (a b c : string) : (a +:+ b) +:+ c = a +:+ b +:+ c.
Proof.
  induction a as [|x a IH]; [done|].
  change (String x ((a +:+ b) +:+ c) = String x (a +:+ b +:+ c)). by f_equal.
Qed.

Lemma string_app_nil_r (a : string) : a +:+ "" = a.
Proof.
  induction a as [|x a IH]; [done|].
  change (String x (a +:+ "") = String x a). by f_equal.
Qed.

Lemma splitlines_go_line (cur l rest : string) :
  single_line l = true →
  splitlines_go cur (l +:+ newline +:+ rest) = (cur +:+ l) :: splitlines_go "" rest.
Proof.
  revert cur. induction l as [|c l IH]; intros cur Hl.
  - change ("" +:+ newline +:+ rest) with (String (Ascii.ascii_of_nat 10) rest).
    simpl. by rewrite string_app_nil_r.
  - change (String c l +:+ newline +:+ rest) with (String c (l +:+ newline +:+ rest)).
    simpl in *. destruct (decide (c = Ascii.ascii_of_nat 10)); [done|].
    rewrite (IH _ Hl). f_equal. apply string_app_assoc.
Qed.

Lemma numbered_lines_from (cols : list string) (start : Z) (i : nat) (col : string) :
  cols !! i = Some col →
  ((fun '(n, c) => column_line n c) <$> enumerate cols start) !! i
  = Some (column_line (start + Z.of_nat i) col).
Proof.
  revert start i. induction cols as [|c cols IH]; intros start [|i] Hi; try done; simpl in *.
  - injection Hi as ->. by rewrite Z.add_0_r.
  - rewrite (IH _ _ Hi). do 2 f_equal. lia.
Qed.

Lemma enumerate_length {A} (xs : list A) (start : Z) :
  length (enumerate xs start) = length xs.
Proof. revert start. induction xs as [|x xs IH]; intros start; simpl; [done|]. by rewrite IH. Qed.

(** ** The script as a process *)

Section ScriptFacts.
Context {Cell World Exn : Type} `{!Geopandas Cell World Exn}.

(** The report loop prints its lines and cannot raise. *)
Lemma report_loop (cols : list string) (start : Z) (s : process Cell World) :
  for_each (enumerate cols start) (fun '(i, col) => print [column_line i col]) s
  = (Returned (Exn := Exn) tt,
     mkProcess (world s)
       (stdout s +:+ unlines ((fun '(i, col) => column_line i col) <$> enumerate cols start))
       (calls s)).
Proof.
  revert start s. induction cols as [|c cols IH]; intros start [w out cs].
  - simpl. unfold Py.ret. by rewrite string_app_nil_r.
  - simpl. unfold Py.bind, print at 1. simpl. rewrite IH. simpl.
    do 2 f_equal. by rewrite !string_app_assoc.
Qed.

(** The script up to the write, when the load returns a frame. *)
Lemma run_loaded (w : World) (gdf : GeoDataFrame Cell) :
  read_file updated_path w = inr gdf →
  run w =
    ((gdf_to_file (rename rename_map gdf) cleaned_path;;
      print ["✅ Cleaned shapefile saved to:"; cleaned_path];;
      print ["📋 New columns:"];;
      for_each (enumerate (columns (rename rename_map gdf)) 1)
        (fun '(i, col) => print [column_line i col]))
       (mkProcess w "" [CallReadFile updated_path]) : outcome Exn unit * _).
Proof.
  intros Hread. unfold run, main, mbind, M_bind, Py.bind at 1, gpd_read_file, start.
  simpl. by rewrite Hread.
Qed.

(** C7: when the load raises, the script ends with that exception: it is
    the outcome of the run, the world is the one the script started in
    (so no output file), nothing is printed, and the load is the only
    library call made: the write is never reached. *)
Theorem read_failure_ends_script (w : World) (e : Exn) :
  read_file updated_path w = inl e →
  run w = (Raised e, mkProcess w "" [CallReadFile updated_path])
  ∧ ∀ gdf path, CallToFile gdf path ∉ calls (run w).2.
Proof.
  intros Hread.
  assert (run w = (Raised e, mkProcess w "" [CallReadFile updated_path])) as Hrun.
  { unfold run, main, mbind, M_bind, Py.bind, gpd_read_file, start.
    simpl. by rewrite Hread. }
  split; [done|]. rewrite Hrun. simpl.
  intros gdf path Hin%list_elem_of_singleton. discriminate.
Qed.

(** C9: when the load returns a frame and the write raises, the script
    ends with that exception after one call of the writer, made on the
    renamed frame; the world is the one the writer left, and nothing is
    printed. *)
Theorem write_failure_ends_script (w w' : World) (gdf : GeoDataFrame Cell) (e : Exn) :
  read_file updated_path w = inr gdf →
  to_file (rename rename_map gdf) cleaned_path w = (Some e, w') →
  run w = (Raised e,
           mkProcess w' ""
             [CallReadFile updated_path;
              CallToFile (rename rename_map gdf) cleaned_path]).
Proof.
  intros Hread Hwrite. rewrite (run_loaded _ _ Hread).
  unfold mbind, M_bind, Py.bind at 1, gdf_to_file. simpl. by rewrite Hwrite.
Qed.

Lemma run_write_raises_calls (w w' : World) (gdf : GeoDataFrame Cell) (e : Exn) :
  read_file updated_path w = inr gdf →
  to_file (rename rename_map gdf) cleaned_path w = (Some e, w') →
  calls (run w).2
  = [CallReadFile updated_path; CallToFile (rename rename_map gdf) cleaned_path].
Proof.
  intros Hread Hwrite. rewrite (run_loaded _ _ Hread).
  unfold mbind, M_bind, Py.bind at 1, gdf_to_file. simpl. by rewrite Hwrite.
Qed.

(** The run when both library calls return. *)
Lemma run_written (w w' : World) (gdf : GeoDataFrame Cell) :
  read_file updated_path w = inr gdf →
  to_file (rename rename_map gdf) cleaned_path w = (None, w') →
  run w = (Returned tt,
           mkProcess w'
             (unlines (confirmation_line :: columns_header
                       :: numbered_lines (columns (rename rename_map gdf))))
             [CallReadFile updated_path;
              CallToFile (rename rename_map gdf) cleaned_path]).
Proof.
  intros Hread Hwrite. rewrite (run_loaded _ _ Hread).
  unfold mbind, M_bind, Py.bind at 1, gdf_to_file. simpl. rewrite Hwrite.
  unfold Py.bind at 1, print at 1. simpl.
  unfold Py.bind at 1, print at 1. simpl.
  rewrite report_loop. simpl. reflexivity.
Qed.

(** C6, as the script has it: after a successful write the output is the
    confirmation line, which contains the destination path, then the
    heading line of the column list, then one line per column of the
    renamed frame in column order, the line of the column at position
    [i] being its 1-based index [i + 1], a dot, a space and its name. *)
Theorem report_after_write (w w' : World) (gdf : GeoDataFrame Cell) :
  read_file updated_path w = inr gdf →
  to_file (rename rename_map gdf) cleaned_path w = (None, w') →
  let cols := columns (rename rename_map gdf) in
  (run w).1 = Returned tt
  ∧ stdout (run w).2
    = unlines (confirmation_line :: columns_header :: numbered_lines cols)
  ∧ single_line confirmation_line = true
  ∧ contains confirmation_line cleaned_path
  ∧ length (numbered_lines cols) = length cols
  ∧ ∀ (i : nat) (col : string),
      cols !! i = Some col →
      numbered_lines cols !! i
      = Some (str_int (Z.of_nat i + 1) +:+ ". " +:+ col).
Proof.
  intros Hread Hwrite cols. rewrite (run_written _ _ _ Hread Hwrite). simpl.
  split_and!; try done.
  - exists "✅ Cleaned shapefile saved to: ", "". by rewrite string_app_nil_r.
  - unfold numbered_lines. by rewrite length_fmap, enumerate_length.
  - intros i col Hi. unfold numbered_lines.
    rewrite (numbered_lines_from _ _ _ _ Hi). by rewrite Z.add_comm.
Qed.

(** Whatever the writer does, it is called once, on the renamed frame. *)
Lemma run_calls (w : World) (gdf : GeoDataFrame Cell) :
  read_file updated_path w = inr gdf →
  calls (run w).2
  = [CallReadFile updated_path; CallToFile (rename rename_map gdf) cleaned_path].
Proof.
  intros Hread.
  destruct (to_file (rename rename_map gdf) cleaned_path w) as [[e|] w'] eqn:Hwrite.
  - by rewrite (run_write_raises_calls w w' gdf e Hread Hwrite).
  - by rewrite (run_written _ _ _ Hread Hwrite).
Qed.

(** C8, for the rename step: a column that already bears a new name of
    the table, next to the column that bears the key for it: after the
    rename both columns bear the new name, the frame has as many columns
    and the same records as before (nothing is merged or dropped), and
    its column names are no longer distinct.  The rename step raises
    nothing: the script goes on to call the writer on that frame.  What
    the writer does with it is the writer's own. *)
Theorem collision_is_kept (w : World) (gdf : GeoDataFrame Cell)
    (i j : nat) (k v : string) :
  rename_map !! k = Some v →
  columns gdf !! i = Some v →
  columns gdf !! j = Some k →
  let renamed := rename rename_map gdf in
  i ≠ j
  ∧ columns renamed !! i = Some v
  ∧ columns renamed !! j = Some v
  ∧ length (columns renamed) = length (columns gdf)
  ∧ records renamed = records gdf
  ∧ ¬ NoDup (columns renamed)
  ∧ (read_file updated_path w = inr gdf →
     CallToFile renamed cleaned_path ∈ calls (run w).2).
Proof.
  intros Hk Hi Hj renamed.
  pose proof (new_name_not_key _ _ Hk) as Hv.
  assert (i ≠ j) as Hij by (intros ->; congruence).
  assert (columns renamed !! i = Some v) as Hi'.
  { unfold renamed. rewrite rename_columns_lookup, Hi. simpl.
    by rewrite (rename_label_other _ _ Hv). }
  assert (columns renamed !! j = Some v) as Hj'.
  { unfold renamed. rewrite rename_columns_lookup, Hj. simpl.
    by rewrite (rename_label_key _ _ _ Hk). }
  split_and!; try done.
  - unfold renamed, rename. simpl. apply length_fmap.
  - intros Hnd. by apply Hij, (NoDup_lookup _ _ _ _ Hnd Hi' Hj').
  - intros Hread. rewrite (run_calls _ _ Hread). set_solver.
Qed.

End ScriptFacts.

(** ** Runs on the small disk *)

Lemma read_failure_ends_script_witness :
  run Disk.empty_disk
  = (Raised (Disk.DataSourceError updated_path),
     mkProcess Disk.empty_disk "" [CallReadFile updated_path])
  ∧ ∀ gdf path, CallToFile gdf path ∉ calls (run Disk.empty_disk).2.
Proof.
  apply (read_failure_ends_script Disk.empty_disk (Disk.DataSourceError updated_path)).
  vm_compute. reflexivity.
Defined.

Lemma write_failure_ends_script_witness :
  run Disk.locked_disk
  = (Raised (Disk.PermissionError cleaned_path),
     mkProcess Disk.locked_disk ""
       [CallReadFile updated_path;
        CallToFile (rename rename_map Disk.communes) cleaned_path]).
Proof.
  apply (write_failure_ends_script Disk.locked_disk Disk.locked_disk Disk.communes).
  - vm_compute. reflexivity.
  - vm_compute. reflexivity.
Defined.

Lemma report_after_write_witness :
  let cols := columns (rename rename_map Disk.communes) in
  (run Disk.loaded_disk).1 = Returned tt
  ∧ stdout (run Disk.loaded_disk).2
    = unlines (confirmation_line :: columns_header :: numbered_lines cols)
  ∧ single_line confirmation_line = true
  ∧ contains confirmation_line cleaned_path
  ∧ length (numbered_lines cols) = length cols
  ∧ ∀ (i : nat) (col : string),
      cols !! i = Some col →
      numbered_lines cols !! i
      = Some (str_int (Z.of_nat i + 1) +:+ ". " +:+ col).
Proof.
  apply (report_after_write Disk.loaded_disk
           (Disk.mkDisk
              (<[cleaned_path := rename rename_map Disk.communes]>
                 {[ updated_path := Disk.communes ]}) false)
           Disk.communes).
  - vm_compute. reflexivity.
  - vm_compute. reflexivity.
Defined.

(** On a run whose load and write succeed the output is not a
    confirmation line followed at once by the numbered lines: the heading
    line stands between them. *)
Lemma report_not_as_specified :
  ¬ report_as_specified (stdout (run Disk.loaded_disk).2)
      (columns (rename rename_map Disk.communes)).
Proof.
  intros (conf & Hline & _ & Hout).
  apply (f_equal splitlines) in Hout. revert Hout.
  unfold splitlines. simpl unlines. rewrite (splitlines_go_line _ _ _ Hline).
  intros Hout%(f_equal length). vm_compute in Hout. discriminate.
Qed.

Lemma collision_is_kept_witness :
  let renamed := rename rename_map Disk.colliding in
  1 ≠ 2
  ∧ columns renamed !! 1 = Some "OEVP_votes"
  ∧ columns renamed !! 2 = Some "OEVP_votes"
  ∧ length (columns renamed) = length (columns Disk.colliding)
  ∧ records renamed = records Disk.colliding
  ∧ ¬ NoDup (columns renamed)
  ∧ (read_file updated_path Disk.colliding_disk = inr Disk.colliding →
     CallToFile renamed cleaned_path ∈ calls (run Disk.colliding_disk).2).
Proof.
  apply (collision_is_kept Disk.colliding_disk Disk.colliding 1 2 "ÖVP_votes").
  - vm_compute. reflexivity.
  - reflexivity.
  - reflexivity.
Defined.

(** The collision scenario does not pass without an error through the
    whole script: the rename keeps both columns under the new name, and
    then the writer refuses the frame, so the run ends with its
    [ValueError] and prints nothing. *)
Lemma collision_raises_at_write :
  read_file updated_path Disk.colliding_disk = inr Disk.colliding
  ∧ rename_map !! "ÖVP_votes" = Some "OEVP_votes"
  ∧ columns Disk.colliding !! 1 = Some "OEVP_votes"
  ∧ columns Disk.colliding !! 2 = Some "ÖVP_votes"
  ∧ run Disk.colliding_disk
    = (Raised (Disk.ValueError "GeoDataFrame cannot contain duplicated column names."),
       mkProcess Disk.colliding_disk ""
         [CallReadFile updated_path;
          CallToFile (rename rename_map Disk.colliding) cleaned_path])
  ∧ ¬ collision_as_specified Disk.colliding_disk Disk.colliding "OEVP_votes".
Proof.
  assert (run Disk.colliding_disk
          = (Raised (Disk.ValueError "GeoDataFrame cannot contain duplicated column names."),
             mkProcess Disk.colliding_disk ""
               [CallReadFile updated_path;
                CallToFile (rename rename_map Disk.colliding) cleaned_path])) as Hrun.
  { vm_compute. reflexivity. }
  split_and!; try done; try (vm_compute; reflexivity).
  intros (_ & _ & Hsilent). rewrite Hrun in Hsilent. by eapply Hsilent.
Qed.

(** * Further properties of the script *)

(** ** What the rename leaves behind *)

(** X1: after the rename no column bears a key of the table: every old
    name is gone from the frame. *)
Theorem rename_removes_keys {Cell} (gdf : GeoDataFrame Cell) :
  Forall (fun x => rename_map !! x = None) (columns (rename rename_map gdf)).
Proof.
  unfold rename. simpl. apply Forall_fmap, Forall_forall. intros x _. simpl.
  destruct (rename_map !! x) as [v|] eqn:Hx.
  - rewrite (rename_label_key _ _ _ Hx). by apply (new_name_not_key x).
  - by rewrite (rename_label_other _ _ Hx).
Qed.

(** X2: a frame none of whose columns bears a key of the mapper comes
    back as it was, labels and records; the empty dict is such a mapper
    for every frame. *)
Theorem rename_without_keys {Cell} (mapper : gmap string string)
    (gdf : GeoDataFrame Cell) :
  Forall (fun x => mapper !! x = None) (columns gdf) →
  rename mapper gdf = gdf.
Proof.
  intros Hall. destruct gdf as [cols recs]. unfold rename. simpl in *. f_equal.
  rewrite <-(list_fmap_id cols) at 2. apply Forall_fmap_ext_1.
  eapply Forall_impl; [exact Hall|]. intros x Hx. by apply rename_label_other.
Qed.

Lemma rename_without_keys_witness :
  rename rename_map Disk.cleaned = Disk.cleaned.
Proof.
  apply (rename_without_keys rename_map Disk.cleaned).
  apply (bool_decide_unpack _). vm_compute. exact I.
Defined.

(** X3: distinct column names stay distinct when no column bears the new
    name of a key that is itself borne by a column. *)
Theorem rename_keeps_distinct {Cell} (gdf : GeoDataFrame Cell) :
  NoDup (columns gdf) →
  (∀ k v, rename_map !! k = Some v → k ∈ columns gdf → v ∉ columns gdf) →
  NoDup (columns (rename rename_map gdf)).
Proof.
  intros Hnd Hfree. unfold rename. simpl.
  apply NoDup_fmap_2_strong; [|done].
  intros a b Ha Hb Hab.
  destruct (rename_map !! a) as [va|] eqn:Hka; destruct (rename_map !! b) as [vb|] eqn:Hkb.
  - rewrite (rename_label_key _ _ _ Hka), (rename_label_key _ _ _ Hkb) in Hab. subst.
    by apply (new_name_inj a b vb).
  - rewrite (rename_label_key _ _ _ Hka), (rename_label_other _ _ Hkb) in Hab. subst.
    by destruct (Hfree a b Hka Ha).
  - rewrite (rename_label_other _ _ Hka), (rename_label_key _ _ _ Hkb) in Hab. subst.
    by destruct (Hfree b vb Hkb Hb).
  - by rewrite (rename_label_other _ _ Hka), (rename_label_other _ _ Hkb) in Hab.
Qed.

Lemma rename_keeps_distinct_witness :
  NoDup (columns (rename rename_map Disk.communes)).
Proof.
  apply (rename_keeps_distinct Disk.communes).
  - apply (bool_decide_unpack _). vm_compute. exact I.
  - intros k v Hk Hin. unfold Disk.communes in Hin. simpl in Hin.
    repeat (apply elem_of_cons in Hin as [-> | Hin]);
      [.. | by apply elem_of_nil in Hin];
      vm_compute in Hk; try discriminate; injection Hk as <-;
      apply (bool_decide_unpack _); vm_compute; exact I.
Defined.

(** X4: the label "geometry" stays where it is and appears nowhere else:
    a column bears it after the rename exactly when it bore it before. *)
Theorem geometry_label_stable {Cell} (gdf : GeoDataFrame Cell) (i : nat) :
  columns (rename rename_map gdf) !! i = Some "geometry"
  ↔ columns gdf !! i = Some "geometry".
Proof.
  rewrite rename_columns_lookup.
  destruct (columns gdf !! i) as [x|]; simpl; [|done].
  split; intros [= Hx]; f_equal; by apply rename_label_geometry.
Qed.

(** X5: the new names of the table are ASCII, so a frame whose columns
    off the table have ASCII names has only ASCII names after the
    rename. *)
Theorem rename_gives_ascii_names {Cell} (gdf : GeoDataFrame Cell) :
  Forall (fun x => rename_map !! x = None → ascii_only x = true) (columns gdf) →
  Forall (fun y => ascii_only y = true) (columns (rename rename_map gdf)).
Proof.
  intros Hall. unfold rename. simpl. apply Forall_fmap.
  eapply Forall_impl; [exact Hall|]. intros x Hx. simpl.
  destruct (rename_map !! x) as [v|] eqn:Hk.
  - rewrite (rename_label_key _ _ _ Hk). clear Hx. revert x v Hk.
    apply (table_rows (fun _ v => ascii_only v)). vm_compute. reflexivity.
  - rewrite (rename_label_other _ _ Hk). by apply Hx.
Qed.

Lemma rename_gives_ascii_names_witness :
  Forall (fun y => ascii_only y = true) (columns (rename rename_map Disk.communes)).
Proof.
  apply (rename_gives_ascii_names Disk.communes).
  repeat (apply Forall_cons; split;
          [intros Hk; first [by vm_compute | vm_compute in Hk; discriminate]|]).
  constructor.
Defined.

(** ** The text of the report lines *)

Lemma single_line_mentions (s : string) :
  single_line s = negb (mentions (Ascii.ascii_of_nat 10) s).
Proof.
  induction s as [|x s IH]; [done|]. simpl.
  by destruct (decide (x = Ascii.ascii_of_nat 10)).
Qed.

Lemma mentions_app (c : Ascii.ascii) (a b : string) :
  mentions c (a +:+ b) = mentions c a || mentions c b.
Proof.
  induction a as [|x a IH]; [done|].
  change (String x a +:+ b) with (String x (a +:+ b)). simpl.
  by destruct (decide (x = c)).
Qed.

(** The digits of an int hold neither a newline nor a dot. *)
Lemma str_int_mentions (c : Ascii.ascii) (i : Z) :
  c = Ascii.ascii_of_nat 10 ∨ c = Ascii.ascii_of_nat 46 →
  mentions c (str_int i) = false.
Proof.
  intros Hc.
  assert (∀ d, mentions c (NilEmpty.string_of_uint d) = false) as Hdigits.
  { induction d; destruct Hc as [-> | ->]; simpl; done. }
  assert (∀ d, mentions c (NilZero.string_of_uint d) = false) as Hnat.
  { intros [| | | | | | | | | |]; try apply Hdigits.
    destruct Hc as [-> | ->]; done. }
  unfold str_int. destruct (Z.to_int i) as [d|d]; simpl; [apply Hnat|].
  rewrite Hnat. by destruct Hc as [-> | ->].
Qed.

Lemma str_int_inj (i j : Z) : str_int i = str_int j → i = j.
Proof.
  unfold str_int. intros Heq. apply DecimalZ.to_int_inj.
  assert (∀ z, NilZero.int_of_string (NilZero.string_of_int (Z.to_int z))
               = Some (Z.to_int z)) as Hparse.
  { intros [|p|p]; [done| |]; apply NilZero.isi; simpl;
      intros [= Hnil]; by apply Unsigned.to_uint_nonnil in Hnil. }
  pose proof (Hparse i) as Hi. rewrite Heq, Hparse in Hi. by injection Hi.
Qed.

(** Two texts cut at their first dot: equal wholes have equal parts. *)
Lemma cut_at_dot (a b c d : string) :
  mentions (Ascii.ascii_of_nat 46) a = false →
  mentions (Ascii.ascii_of_nat 46) b = false →
  a +:+ ". " +:+ c = b +:+ ". " +:+ d →
  a = b ∧ c = d.
Proof.
  revert b. induction a as [|x a IH]; intros [|y b] Ha Hb Heq.
  - by injection Heq.
  - change (String y b +:+ ?t) with (String y (b +:+ t)) in Heq.
    injection Heq as <- _. by simpl in Hb.
  - change (String x a +:+ ?t) with (String x (a +:+ t)) in Heq.
    injection Heq as -> _. by simpl in Ha.
  - change (String x a +:+ ?t) with (String x (a +:+ t)) in Heq.
    change (String y b +:+ ?t) with (String y (b +:+ t)) in Heq.
    injection Heq as -> Heq. simpl in Ha, Hb.
    destruct (decide (y = Ascii.ascii_of_nat 46)); [done|].
    destruct (IH b Ha Hb Heq) as [-> ->]. done.
Qed.

Lemma splitlines_unlines (ls : list string) :
  Forall (fun l => single_line l = true) ls → splitlines (unlines ls) = ls.
Proof.
  unfold splitlines. induction 1 as [|l ls Hl _ IH]; [done|].
  simpl unlines. by rewrite (splitlines_go_line _ _ _ Hl), IH.
Qed.

Lemma column_line_single (i : Z) (col : string) :
  single_line col = true → single_line (column_line i col) = true.
Proof.
  rewrite !single_line_mentions. unfold column_line.
  rewrite !mentions_app, str_int_mentions by auto.
  by destruct (mentions _ col).
Qed.

Lemma numbered_lines_single (cols : list string) :
  Forall (fun c => single_line c = true) cols →
  Forall (fun l => single_line l = true) (numbered_lines cols).
Proof.
  unfold numbered_lines. generalize 1%Z.
  induction cols as [|c cols IH]; intros start Hall; simpl; [constructor|].
  apply Forall_cons in Hall as [Hc Hall].
  apply Forall_cons. split; [by apply column_line_single | by apply IH].
Qed.

Lemma rename_single_lines (cols : list string) :
  Forall (fun c => single_line c = true) cols →
  Forall (fun c => single_line c = true) (rename_label rename_map <$> cols).
Proof.
  intros Hall. apply Forall_fmap. eapply Forall_impl; [exact Hall|].
  intros x Hx. simpl. destruct (rename_map !! x) as [v|] eqn:Hk.
  - rewrite (rename_label_key _ _ _ Hk). clear Hx. revert x v Hk.
    apply (table_rows (fun _ v => single_line v)). vm_compute. reflexivity.
  - by rewrite (rename_label_other _ _ Hk).
Qed.

Lemma enumerate_indices {A} (xs : list A) (start n : Z) (x : A) :
  (n, x) ∈ enumerate xs start → (start ≤ n)%Z.
Proof.
  revert start. induction xs as [|y xs IH]; intros start Hin; simpl in Hin.
  - by apply elem_of_nil in Hin.
  - apply elem_of_cons in Hin as [[= -> _] | Hin]; [lia|].
    apply IH in Hin. lia.
Qed.

Lemma enumerate_NoDup {A} (xs : list A) (start : Z) : NoDup (enumerate xs start).
Proof.
  revert start. induction xs as [|y xs IH]; intros start; simpl; [constructor|].
  apply NoDup_cons. split; [|apply IH].
  intros Hin%enumerate_indices. lia.
Qed.

Lemma column_line_parts (i j : Z) (c d : string) :
  column_line i c = column_line j d → i = j ∧ c = d.
Proof.
  unfold column_line. intros Heq.
  apply cut_at_dot in Heq as [Hij ->]; [|by apply str_int_mentions; auto..].
  split; [by apply str_int_inj | done].
Qed.

(** X6: a report line gives back its index and its column name: two
    lines are equal only when both are. *)
Theorem column_line_inj (i j : Z) (c d : string) :
  column_line i c = column_line j d → i = j ∧ c = d.
Proof. apply column_line_parts. Qed.

Lemma column_line_inj_witness : 2%Z = 2%Z ∧ "SPO_votes" = "SPO_votes".
Proof. apply (column_line_inj 2 2 "SPO_votes" "SPO_votes"). reflexivity. Defined.

(** X7: the numbered lines of a report are pairwise different, also for a
    frame in which two columns bear the same name. *)
Theorem numbered_lines_distinct (cols : list string) :
  NoDup (numbered_lines cols).
Proof.
  unfold numbered_lines. apply NoDup_fmap_2_strong; [|apply enumerate_NoDup].
  intros [i c] [j d] _ _ Heq. apply column_line_parts in Heq as [-> ->]. done.
Qed.

(** ** Every run of the script *)

Section EveryRun.
Context {Cell World Exn : Type} `{!Geopandas Cell World Exn}.

Lemma run_not_loaded (w : World) (e : Exn) :
  read_file updated_path w = inl e →
  run w = (Raised e, mkProcess w "" [CallReadFile updated_path]).
Proof.
  intros Hread. unfold run, main, mbind, M_bind, Py.bind, gpd_read_file, start.
  simpl. by rewrite Hread.
Qed.

Lemma run_not_written (w w' : World) (gdf : GeoDataFrame Cell) (e : Exn) :
  read_file updated_path w = inr gdf →
  to_file (rename rename_map gdf) cleaned_path w = (Some e, w') →
  run w = (Raised e,
           mkProcess w' ""
             [CallReadFile updated_path;
              CallToFile (rename rename_map gdf) cleaned_path]).
Proof.
  intros Hread Hwrite. rewrite (run_loaded _ _ Hread).
  unfold mbind, M_bind, Py.bind at 1, gdf_to_file. simpl. by rewrite Hwrite.
Qed.

(** The three ways a run can go. *)
Lemma run_cases (w : World) :
  (∃ e, read_file updated_path w = inl e
        ∧ run w = (Raised e, mkProcess w "" [CallReadFile updated_path]))
  ∨ (∃ gdf e w',
        read_file updated_path w = inr gdf
        ∧ to_file (rename rename_map gdf) cleaned_path w = (Some e, w')
        ∧ run w = (Raised e,
                   mkProcess w' ""
                     [CallReadFile updated_path;
                      CallToFile (rename rename_map gdf) cleaned_path]))
  ∨ (∃ gdf w',
        read_file updated_path w = inr gdf
        ∧ to_file (rename rename_map gdf) cleaned_path w = (None, w')
        ∧ run w = (Returned tt,
                   mkProcess w'
                     (unlines (confirmation_line :: columns_header
                               :: numbered_lines (columns (rename rename_map gdf))))
                     [CallReadFile updated_path;
                      CallToFile (rename rename_map gdf) cleaned_path])).
Proof.
  destruct (read_file updated_path w) as [e|gdf] eqn:Hread.
  - left. exists e. split; [done|]. by apply run_not_loaded.
  - right.
    destruct (to_file (rename rename_map gdf) cleaned_path w) as [[e|] w'] eqn:Hwrite.
    + left. exists gdf, e, w'. split_and!; try done. by apply run_not_written.
    + right. exists gdf, w'. split_and!; try done. by apply run_written.
Qed.

(** X8: in every world the script reads only [updated_path], first, and
    writes at most once, to [cleaned_path], the renamed frame: these are
    all the library calls of a run. *)
Theorem run_library_calls (w : World) :
  calls (run w).2 = [CallReadFile updated_path]
  ∨ ∃ gdf,
      read_file updated_path w = inr gdf
      ∧ calls (run w).2
        = [CallReadFile updated_path;
           CallToFile (rename rename_map gdf) cleaned_path].
Proof.
  destruct (run_cases w) as [(e & _ & ->) | [(gdf & e & w' & Hread & _ & ->)
                                           | (gdf & w' & Hread & _ & ->)]];
    [by left | right; by exists gdf..].
Qed.

(** X9: the world a run leaves is the world of the start when the load
    raises, else the world the writer leaves: nothing but [to_file]
    changes it.  And a run that does not end with an exception is one in
    which both library calls returned normally. *)
Theorem run_world_and_normal_end (w : World) :
  world (run w).2
  = match read_file updated_path w with
    | inl _ => w
    | inr gdf => (to_file (rename rename_map gdf) cleaned_path w).2
    end
  ∧ ((∃ e, (run w).1 = Raised e)
     ∨ ∃ gdf, read_file updated_path w = inr gdf
              ∧ (to_file (rename rename_map gdf) cleaned_path w).1 = None).
Proof.
  destruct (run_cases w) as [(e & Hread & ->) | [(gdf & e & w' & Hread & Hwrite & ->)
                                               | (gdf & w' & Hread & Hwrite & ->)]];
    rewrite Hread; try rewrite Hwrite; simpl.
  - split; [done|]. left. by exists e.
  - split; [done|]. left. by exists e.
  - split; [done|]. right. exists gdf. by rewrite Hwrite.
Qed.

(** X10: a run prints when it ends normally and only then: an exception
    leaves standard output empty. *)
Theorem prints_exactly_on_success (w : World) :
  ((run w).1 = Returned tt ∧ stdout (run w).2 ≠ "")
  ∨ (∃ e, (run w).1 = Raised e ∧ stdout (run w).2 = "").
Proof.
  destruct (run_cases w) as [(e & _ & ->) | [(gdf & e & w' & _ & _ & ->)
                                           | (gdf & w' & _ & _ & ->)]].
  - right. by exists e.
  - right. by exists e.
  - left. split; [done|]. simpl. intros Hout. vm_compute in Hout. discriminate.
Qed.

(** X11: when no column name of the loaded frame holds a newline, the
    lines of the output after a successful write are the confirmation
    line, the heading line and one line per column, and so two more than
    there are columns. *)
Theorem report_line_per_column (w w' : World) (gdf : GeoDataFrame Cell) :
  read_file updated_path w = inr gdf →
  to_file (rename rename_map gdf) cleaned_path w = (None, w') →
  Forall (fun c => single_line c = true) (columns gdf) →
  splitlines (stdout (run w).2)
  = confirmation_line :: columns_header
    :: numbered_lines (columns (rename rename_map gdf))
  ∧ length (splitlines (stdout (run w).2)) = 2 + length (columns gdf).
Proof.
  intros Hread Hwrite Hcols. rewrite (run_written _ _ _ Hread Hwrite).
  cbn [snd stdout].
  assert (splitlines
            (unlines (confirmation_line :: columns_header
                      :: numbered_lines (columns (rename rename_map gdf))))
          = confirmation_line :: columns_header
            :: numbered_lines (columns (rename rename_map gdf))) as ->.
  { apply splitlines_unlines. repeat (apply Forall_cons; split; [done|]).
    apply numbered_lines_single. unfold rename. simpl.
    by apply rename_single_lines. }
  split; [done|]. simpl. unfold numbered_lines.
  by rewrite length_fmap, enumerate_length, length_fmap.
Qed.

End EveryRun.

Lemma report_line_per_column_witness :
  splitlines (stdout (run Disk.loaded_disk).2)
  = confirmation_line :: columns_header
    :: numbered_lines (columns (rename rename_map Disk.communes))
  ∧ length (splitlines (stdout (run Disk.loaded_disk).2))
    = 2 + length (columns Disk.communes).
Proof.
  apply (report_line_per_column Disk.loaded_disk
           (Disk.mkDisk
              (<[cleaned_path := rename rename_map Disk.communes]>
                 {[ updated_path := Disk.communes ]}) false)
           Disk.communes).
  - vm_compute. reflexivity.
  - vm_compute. reflexivity.
  - apply (bool_decide_unpack _). vm_compute. exact I.
Defined.
